(** * ConsultEase faculty desk unit: the TFT_eSPI display manifest

    The repository's display configuration is the header
    [faculty_desk_unit/User_Setup.h]: a flat list of object-like
    [#define] directives that the TFT_eSPI driver library includes.
    The header is embedded below as its text, line by line, and is given
    meaning by a small model of the C preprocessor phases it exercises:
    line-comment removal, directive recognition and the macro table built
    by [#define].  The properties of the manifest are then statements
    about that macro table. *)

From Stdlib Require Import ZArith Ascii String List.
From stdpp Require Import gmap strings list.

Local Open Scope Z_scope.

(** ** The header text *)

Module Source.

(** The one-character string holding a double quote. *)
Definition dquote : string := String "034"%char EmptyString.

(** [faculty_desk_unit/User_Setup.h], one entry per physical line.  The
    last line carries a trailing blank and no final newline. *)
Definition User_Setup_h : list string := [
  "// User setup file for the TFT_eSPI library for the ConsultEase Faculty Desk Unit";
  "// For ESP32 with 2.4" +:+ dquote +:+ " TFT SPI Display (ST7789)";
  EmptyString;
  "// => Copy this file to the libraries/TFT_eSPI folder in your Arduino IDE";
  EmptyString;
  "#define USER_SETUP_INFO " +:+ dquote +:+ "ConsultEase Faculty Desk Unit" +:+ dquote;
  EmptyString;
  "// Define the ESP32 board";
  "#define ESP32_PARALLEL";
  EmptyString;
  "// Comment out the next line to use SPI interface instead of parallel";
  "//#define TFT_PARALLEL_8_BIT";
  EmptyString;
  "// Display driver";
  "#define ST7789_DRIVER";
  EmptyString;
  "// Display resolution";
  "#define TFT_WIDTH  240";
  "#define TFT_HEIGHT 320";
  EmptyString;
  "// For ST7789 display in Landscape orientation";
  "#define CGRAM_OFFSET";
  EmptyString;
  "// Color depth";
  "#define SPI_FREQUENCY  27000000   // Works with SPI display";
  "//#define SPI_FREQUENCY  40000000 // Maximum for ST7789 but might be unstable";
  EmptyString;
  "// ESP32 Pin configuration for SPI display";
  "// VSPI port is used (/CS=GPIO5, MOSI=GPIO23, MISO=GPIO19, SCK=GPIO18)";
  "#define TFT_MISO 19";
  "#define TFT_MOSI 23";
  "#define TFT_SCLK 18";
  "#define TFT_CS   5   // Chip select control pin";
  "#define TFT_DC   2   // Data Command control pin";
  "#define TFT_RST  4   // Reset pin";
  "#define TFT_BL   15  // LED back-light";
  EmptyString;
  "// Touch screen chip select - set to -1 if touch is not used";
  "#define TOUCH_CS -1";
  EmptyString;
  "// Comment out to use SPI read for TFT";
  "#define TFT_SPI_MODE SPI_MODE0";
  EmptyString;
  "// Load the font files";
  "#define LOAD_GLCD   // Font 1. Original Adafruit 8 pixel font needs ~1820 bytes in FLASH";
  "#define LOAD_FONT2  // Font 2. Small 16 pixel high font, needs ~3534 bytes in FLASH, 96 characters";
  "#define LOAD_FONT4  // Font 4. Medium 26 pixel high font, needs ~5848 bytes in FLASH, 96 characters";
  "#define LOAD_FONT6  // Font 6. Large 48 pixel font, needs ~2666 bytes in FLASH, only characters 1234567890:-.apm";
  "#define LOAD_FONT7  // Font 7. 7 segment 48 pixel font, needs ~2438 bytes in FLASH, only characters 1234567890:.";
  "#define LOAD_FONT8  // Font 8. Large 75 pixel font needs ~3256 bytes in FLASH, only characters 1234567890:-.";
  "//#define LOAD_FONT8N // Font 8 narrow, only characters 1234567890:-.";
  EmptyString;
  "// Additional options";
  "#define SMOOTH_FONT";
  "//#define SPI_TOUCH  // Saves DMA channel if SPI display is used";
  EmptyString;
  "// Swap bytes in 16-bit color transfers";
  "// #define TFT_RGB_ORDER TFT_RGB  // Colour order Red-Green-Blue";
  "#define TFT_RGB_ORDER TFT_BGR  // Colour order Blue-Green-Red";
  EmptyString;
  "// Avoid conflict with SUPPORT_TRANSACTIONS in the library";
  "//#define SUPPORT_TRANSACTIONS "
].

End Source.

(** ** The preprocessor fragment the header exercises *)

Module Cpp.

Definition is_digit (c : ascii) : bool :=
  let n := N_of_ascii c in ((48 <=? n) && (n <=? 57))%N.

Definition is_ident_start (c : ascii) : bool :=
  let n := N_of_ascii c in
  (((65 <=? n) && (n <=? 90)) || ((97 <=? n) && (n <=? 122)) || (n =? 95))%N.

Definition is_ident_char (c : ascii) : bool :=
  is_ident_start c || is_digit c.

Definition is_quote (c : ascii) : bool :=
  let n := N_of_ascii c in ((n =? 34) || (n =? 39))%N.

Definition is_backslash (c : ascii) : bool := (N_of_ascii c =? 92)%N.
Definition is_slash (c : ascii) : bool := (N_of_ascii c =? 47)%N.
Definition is_star (c : ascii) : bool := (N_of_ascii c =? 42)%N.

(** Removal of a [//] comment.  [lit] is the quote character of the
    string or character literal the scan is inside of, if any: a [//]
    inside a literal does not open a comment, and a backslash inside a
    literal protects the character after it. *)
Fixpoint strip_comment (lit : option ascii) (s : string) : string :=
  match s with
  | EmptyString => EmptyString
  | String c rest =>
      match lit with
      | Some q =>
          if is_backslash c then
            match rest with
            | EmptyString => String c EmptyString
            | String d rest' => String c (String d (strip_comment lit rest'))
            end
          else if Ascii.eqb c q then String c (strip_comment None rest)
          else String c (strip_comment lit rest)
      | None =>
          match rest with
          | String d _ =>
              if is_slash c && is_slash d then EmptyString
              else if is_quote c then String c (strip_comment (Some c) rest)
              else String c (strip_comment None rest)
          | EmptyString => String c EmptyString
          end
      end
  end.

Fixpoint skip_ws (s : string) : string :=
  match s with
  | String c rest => if Ascii.is_space c then skip_ws rest else s
  | EmptyString => EmptyString
  end.

Definition trim (s : string) : string :=
  String.rev (skip_ws (String.rev (skip_ws s))).

(** The longest prefix of identifier characters, and what follows it. *)
Fixpoint span_ident (s : string) : string * string :=
  match s with
  | String c rest =>
      if is_ident_char c then
        let '(i, r) := span_ident rest in (String c i, r)
      else (EmptyString, s)
  | EmptyString => (EmptyString, EmptyString)
  end.

Definition well_formed_ident (i : string) : bool :=
  match i with
  | String c _ => is_ident_start c
  | EmptyString => false
  end.

(** A logical line after comment removal. *)
Inductive line : Type :=
| Blank
| Define (name body : string)
| DefineFn (name rest : string)
| Directive (name rest : string)
| Text (s : string).

Global Instance line_eq_dec : EqDecision line.
Proof. solve_decision. Defined.

Definition parse_define (r : string) : line :=
  let '(n, r') := span_ident (skip_ws r) in
  if well_formed_ident n then
    match r' with
    | String "("%char _ => DefineFn n r'
    | _ => Define n (trim r')
    end
  else Directive "define" (trim r).

Definition parse_line (raw : string) : line :=
  match skip_ws (strip_comment None raw) with
  | EmptyString => Blank
  | String "#"%char r =>
      let '(d, r') := span_ident (skip_ws r) in
      if String.eqb d "define" then parse_define r'
      else Directive d (trim r')
  | s => Text (trim s)
  end.

(** The preprocessor state: the macro table, the names that were
    redefined with a different replacement text (a constraint violation
    the compiler diagnoses), and the lines the fragment does not
    interpret (other directives, function-like macros, program text). *)
Record pp_state : Type := mk_pp {
  macros : gmap string string;
  redefined : list string;
  uninterpreted : list line
}.

Definition pp_init : pp_state := mk_pp ∅ [] [].

Definition pp_step (st : pp_state) (ln : line) : pp_state :=
  match ln with
  | Blank => st
  | Define n b =>
      match macros st !! n with
      | None => mk_pp (<[n := b]> (macros st)) (redefined st) (uninterpreted st)
      | Some b' =>
          if String.eqb b b' then st
          else mk_pp (<[n := b]> (macros st)) (redefined st ++ [n]) (uninterpreted st)
      end
  | _ => mk_pp (macros st) (redefined st) (uninterpreted st ++ [ln])
  end.

Definition preprocess (src : list string) : pp_state :=
  foldl pp_step pp_init (parse_line <$> src).

(** The active [#define] directives of a text, in file order. *)
Definition defines (src : list string) : list (string * string) :=
  omap (λ raw, match parse_line raw with
               | Define n b => Some (n, b)
               | _ => None
               end) src.

Definition define_count (src : list string) (n : string) : nat :=
  length (filter (λ d, d.1 = n) (defines src)).

(** The value of a replacement text that is a decimal integer constant,
    possibly negated. *)
Fixpoint digits_value (acc : Z) (s : string) : option Z :=
  match s with
  | EmptyString => Some acc
  | String c rest =>
      if is_digit c then
        digits_value (10 * acc + Z.of_N (N_of_ascii c - 48)) rest
      else None
  end.

Definition int_of_body (b : string) : option Z :=
  match b with
  | EmptyString => None
  | String "-"%char rest =>
      match skip_ws rest with
      | EmptyString => None
      | ds => Z.opp <$> digits_value 0 ds
      end
  | ds => digits_value 0 ds
  end.

(** Queries on a macro table. *)
Definition is_defined (m : gmap string string) (n : string) : bool :=
  bool_decide (n ∈ dom m).

Definition body_of (m : gmap string string) (n : string) : option string :=
  m !! n.

Definition int_of (m : gmap string string) (n : string) : option Z :=
  body_of m n ≫= int_of_body.

(** A flag is a macro defined with an empty replacement text. *)
Definition is_flag (m : gmap string string) (n : string) : bool :=
  bool_decide (body_of m n = Some EmptyString).

End Cpp.

(** ** The manifest: the macro table of the header *)

Module Manifest.
Import Source Cpp.

Definition manifest : pp_state := preprocess User_Setup_h.

Definition table : gmap string string := macros manifest.

Definition defined (n : string) : bool := is_defined table n.

Definition value_of (n : string) : option string := body_of table n.

Definition int_value (n : string) : option Z := int_of table n.

Definition flag_set (n : string) : bool := is_flag table n.

(** The names the header defines, in file order. *)
Definition defined_symbols : list string := (defines User_Setup_h).*1.

End Manifest.

Import Source Cpp Manifest.

(** ** Symbol groups of the driver library's configuration interface *)

Definition has_prefix (p s : string) : bool := String.prefix p s.

Definition has_suffix (p s : string) : bool :=
  String.prefix (String.rev p) (String.rev s).

(** Controller tags are the symbols named [<chip>_DRIVER]; font inclusion
    flags are the symbols named [LOAD_<font>]. *)
Definition controller_tags : list string :=
  filter (λ n, has_suffix "_DRIVER" n = true) defined_symbols.

Definition font_flags : list string :=
  filter (λ n, has_prefix "LOAD_" n = true) defined_symbols.

(** The pin symbols of the display, in the order the header lists them. *)
Definition display_pins : list string :=
  ["TFT_MISO"; "TFT_MOSI"; "TFT_SCLK"; "TFT_CS"; "TFT_DC"; "TFT_RST"; "TFT_BL"].

Definition valid_gpio (v : Z) : bool := (0 <=? v) && (v <=? 39).

(** ** Replacement texts: kinds and referenced identifiers *)

(** What a replacement text is, as the driver library can use it: nothing
    (a flag), a decimal integer constant, one identifier, one string
    literal, or anything else. *)
Inductive body_kind : Type :=
| KFlag
| KInt (v : Z)
| KIdent (s : string)
| KString (s : string)
| KOther (s : string).

Global Instance body_kind_eq_dec : EqDecision body_kind.
Proof. solve_decision. Defined.

Definition is_single_ident (b : string) : bool :=
  match span_ident b with
  | (i, EmptyString) => well_formed_ident i
  | _ => false
  end.

(** What follows the closing quote of a string literal whose opening
    quote has been read; [None] when the literal is not closed. *)
Fixpoint after_literal (s : string) : option string :=
  match s with
  | EmptyString => None
  | String c rest =>
      if is_backslash c then
        match rest with
        | EmptyString => None
        | String _ rest' => after_literal rest'
        end
      else if (N_of_ascii c =? 34)%N then Some rest
      else after_literal rest
  end.

Definition is_string_literal (b : string) : bool :=
  match b with
  | String c rest =>
      (N_of_ascii c =? 34)%N && bool_decide (after_literal rest = Some EmptyString)
  | EmptyString => false
  end.

Definition kind_of_body (b : string) : body_kind :=
  match b with
  | EmptyString => KFlag
  | _ =>
      match int_of_body b with
      | Some v => KInt v
      | None =>
          if is_single_ident b then KIdent b
          else if is_string_literal b then KString b
          else KOther b
      end
  end.

(** The identifiers of a replacement text, read as the preprocessor
    tokenises it: characters of a literal and of a number are skipped. *)
Inductive scan_mode : Type :=
| Outside
| InIdent (acc : string)
| InNumber
| InLit (q : ascii)
| InLitEsc (q : ascii).

Definition start_mode (c : ascii) : scan_mode :=
  if is_ident_start c then InIdent (String c EmptyString)
  else if is_digit c then InNumber
  else if is_quote c then InLit c
  else Outside.

Fixpoint scan_idents (m : scan_mode) (s : string) : list string :=
  match s with
  | EmptyString =>
      match m with
      | InIdent acc => [String.rev acc]
      | _ => []
      end
  | String c rest =>
      match m with
      | Outside => scan_idents (start_mode c) rest
      | InIdent acc =>
          if is_ident_char c then scan_idents (InIdent (String c acc)) rest
          else String.rev acc :: scan_idents (start_mode c) rest
      | InNumber =>
          if is_ident_char c then scan_idents InNumber rest
          else scan_idents (start_mode c) rest
      | InLit q =>
          if is_backslash c then scan_idents (InLitEsc q) rest
          else if Ascii.eqb c q then scan_idents Outside rest
          else scan_idents (InLit q) rest
      | InLitEsc q => scan_idents (InLit q) rest
      end
  end.

Definition idents_of_body (b : string) : list string := scan_idents Outside b.

(** The identifiers the header's replacement texts refer to. *)
Definition referenced_idents : list string :=
  (defines User_Setup_h).*2 ≫= idents_of_body.

(** ** Disabled directives *)

(** A line with its leading [//] removed. *)
Definition uncomment (raw : string) : string :=
  match skip_ws raw with
  | String "/"%char (String "/"%char rest) => skip_ws rest
  | _ => raw
  end.

(** A disabled directive is a comment line that is a [#define] once
    uncommented; [enable i] uncomments line [i] (counted from 0). *)
Definition disabled_define (raw : string) : option (string * string) :=
  match parse_line raw, parse_line (uncomment raw) with
  | Blank, Define n b => Some (n, b)
  | _, _ => None
  end.

Definition enable (i : nat) (src : list string) : list string :=
  alter uncomment i src.

Definition disabled_directives (src : list string) : list (nat * (string * string)) :=
  omap (λ '(i, raw), pair i <$> disabled_define raw) (imap pair src).

(** ** GPIO assignments written in comments *)

(** The words of a text: runs of identifier characters, and every other
    printing character on its own. *)
Fixpoint words_of (acc : string) (s : string) : list string :=
  let flush := match acc with
               | EmptyString => []
               | _ => [String.rev acc]
               end in
  match s with
  | EmptyString => flush
  | String c rest =>
      if is_ident_char c then words_of (String c acc) rest
      else flush
           ++ (if Ascii.is_space c then [] else [String c EmptyString])
           ++ words_of EmptyString rest
  end.

Definition gpio_index (w : string) : option Z :=
  if String.prefix "GPIO" w then
    match String.substring 4 (String.length w - 4) w with
    | EmptyString => None
    | ds => digits_value 0 ds
    end
  else None.

(** The pairs [NAME=GPIOn] of a word list. *)
Fixpoint gpio_notes (ws : list string) : list (string * Z) :=
  match ws with
  | [] => []
  | k :: rest =>
      match rest with
      | e :: g :: _ =>
          if String.eqb e "=" then
            match gpio_index g with
            | Some v => [(k, v)]
            | None => []
            end
          else []
      | _ => []
      end ++ gpio_notes rest
  end.

(** The GPIO assignments the comments of the header document. *)
Definition documented_gpio : list (string * Z) :=
  User_Setup_h ≫= (λ raw,
    match parse_line raw with
    | Blank => gpio_notes (words_of EmptyString raw)
    | _ => []
    end).

(** The macro a documented signal name stands for: the header writes the
    serial clock [SCK] in the comment and [TFT_SCLK] in the directive. *)
Definition documented_symbol (k : string) : string :=
  if String.eqb k "SCK" then "TFT_SCLK" else "TFT_" +:+ k.


(** ** The reader on single lines *)

Example parse_define_with_comment :
  parse_line "#define TFT_CS   5   // Chip select control pin"
  = Define "TFT_CS" "5".
Proof. reflexivity. Qed.

Example parse_commented_define :
  parse_line "//#define LOAD_FONT8N // Font 8 narrow" = Blank.
Proof. reflexivity. Qed.

Example parse_slashes_in_literal :
  parse_line ("#define URL " +:+ dquote +:+ "a//b" +:+ dquote +:+ " // at")
  = Define "URL" (dquote +:+ "a//b" +:+ dquote).
Proof. reflexivity. Qed.

Example parse_negative_constant :
  int_of_body "-1" = Some (-1) ∧ int_of_body "SPI_MODE0" = None.
Proof. split; reflexivity. Qed.

Example redefinition_is_recorded :
  redefined (preprocess ["#define A 1"; "#define A 2"; "#define A 2"]) = ["A"].
Proof. vm_compute. reflexivity. Qed.

(** ** The macro table and the directive list agree *)

Lemma defines_cons (raw : string) (src : list string) :
  defines (raw :: src) =
  match parse_line raw with
  | Define n b => (n, b) :: defines src
  | _ => defines src
  end.
Proof. unfold defines; simpl. destruct (parse_line raw); reflexivity. Qed.

Lemma pp_fold_dom (src : list string) :
  ∀ (st : pp_state) (n : string),
    n ∈ dom (macros (foldl pp_step st (parse_line <$> src))) ↔
    n ∈ dom (macros st) ∨ n ∈ (defines src).*1.
Proof.
  induction src as [|raw src IH]; intros st n.
  - unfold defines; simpl. rewrite elem_of_nil. tauto.
  - rewrite defines_cons. simpl. rewrite IH.
    destruct (parse_line raw) as [|m b|m r|d r|t]; simpl; try tauto.
    rewrite elem_of_cons.
    destruct (macros st !! m) as [b'|] eqn:Hm; simpl.
    + apply elem_of_dom_2 in Hm.
      destruct (String.eqb b b'); simpl.
      * intuition (subst; auto).
      * rewrite dom_insert_L, elem_of_union, elem_of_singleton.
        intuition (subst; auto).
    + rewrite dom_insert_L, elem_of_union, elem_of_singleton.
      intuition (subst; auto).
Qed.

Lemma preprocess_dom (src : list string) (n : string) :
  n ∈ dom (macros (preprocess src)) ↔ n ∈ (defines src).*1.
Proof.
  unfold preprocess. rewrite pp_fold_dom. simpl.
  rewrite dom_empty_L, elem_of_empty. tauto.
Qed.

Lemma defined_iff (n : string) :
  defined n = true ↔ n ∈ defined_symbols.
Proof.
  unfold defined, is_defined, table, manifest, defined_symbols.
  rewrite <- preprocess_dom.
  split; [apply bool_decide_eq_true_1 | apply bool_decide_eq_true_2].
Qed.

Lemma defined_symbols_eq :
  defined_symbols =
  ["USER_SETUP_INFO"; "ESP32_PARALLEL"; "ST7789_DRIVER"; "TFT_WIDTH";
   "TFT_HEIGHT"; "CGRAM_OFFSET"; "SPI_FREQUENCY"; "TFT_MISO"; "TFT_MOSI";
   "TFT_SCLK"; "TFT_CS"; "TFT_DC"; "TFT_RST"; "TFT_BL"; "TOUCH_CS";
   "TFT_SPI_MODE"; "LOAD_GLCD"; "LOAD_FONT2"; "LOAD_FONT4"; "LOAD_FONT6";
   "LOAD_FONT7"; "LOAD_FONT8"; "SMOOTH_FONT"; "TFT_RGB_ORDER"].
Proof. vm_compute. reflexivity. Qed.

(** The header holds nothing but comments, blank lines and object-like
    [#define]s, and it redefines no macro: the macro table is the whole
    meaning of the file and equals the map of its directive list. *)
Lemma header_is_flat :
  uninterpreted manifest = [] ∧ redefined manifest = [] ∧
  table = list_to_map (defines User_Setup_h).
Proof.
  split; [|split].
  - vm_compute. reflexivity.
  - vm_compute. reflexivity.
  - apply (bool_decide_unpack _). vm_compute. exact I.
Qed.

(** The header uses no line splicing and no block comment, which the
    line-by-line reading above relies on. *)
Fixpoint has_block_open (s : string) : bool :=
  match s with
  | String c rest =>
      match rest with
      | String d _ => (is_slash c && is_star d) || has_block_open rest
      | EmptyString => false
      end
  | EmptyString => false
  end.

Definition ends_with_backslash (s : string) : bool :=
  match String.rev s with
  | String c _ => is_backslash c
  | EmptyString => false
  end.

Lemma header_is_line_oriented :
  forallb (λ l, negb (has_block_open l) && negb (ends_with_backslash l))
          User_Setup_h = true.
Proof. vm_compute. reflexivity. Qed.

(** Two facts checked by running over the finite symbol lists. *)
Lemma pins_injective :
  Forall (λ p, Forall (λ q, int_value p = int_value q → p = q) display_pins)
         display_pins.
Proof. apply (bool_decide_unpack _). vm_compute. exact I. Qed.

Lemma only_touch_negative :
  Forall (λ n, default 0 (int_value n) < 0 → n = "TOUCH_CS") defined_symbols.
Proof. apply (bool_decide_unpack _). vm_compute. exact I. Qed.

Lemma int_value_defined (n : string) (v : Z) :
  int_value n = Some v → n ∈ defined_symbols.
Proof.
  intros Hv. apply defined_iff.
  unfold defined, is_defined. apply bool_decide_eq_true_2.
  apply elem_of_dom. revert Hv.
  unfold int_value, int_of, body_of.
  generalize table; intros m Hv.
  destruct (m !! n) as [b|]; [eauto | discriminate Hv].
Qed.

(** ** Properties of the manifest *)

(** C1: the manifest defines the display-controller tag as ST7789: the
    symbol [ST7789_DRIVER] is defined (as a flag, with no replacement
    text), and it is the controller tag the header defines. *)
Theorem controller_is_ST7789 :
  defined "ST7789_DRIVER" = true ∧
  flag_set "ST7789_DRIVER" = true ∧
  controller_tags = ["ST7789_DRIVER"].
Proof. repeat split; vm_compute; reflexivity. Qed.

(** C2: the panel geometry is width 240 and height 320, and the
    column/row offset correction flag [CGRAM_OFFSET] is defined. *)
Theorem panel_geometry :
  int_value "TFT_WIDTH" = Some 240 ∧
  int_value "TFT_HEIGHT" = Some 320 ∧
  defined "CGRAM_OFFSET" = true ∧
  flag_set "CGRAM_OFFSET" = true.
Proof. repeat split; vm_compute; reflexivity. Qed.

(** C3: the bus is serial at exactly 27,000,000 Hz in SPI mode 0:
    [SPI_FREQUENCY] is 27000000, [TFT_SPI_MODE] is [SPI_MODE0], and the
    parallel-transport flag [TFT_PARALLEL_8_BIT] is not defined. *)
Theorem serial_bus_27MHz_mode0 :
  value_of "SPI_FREQUENCY" = Some "27000000" ∧
  int_value "SPI_FREQUENCY" = Some 27000000 ∧
  value_of "TFT_SPI_MODE" = Some "SPI_MODE0" ∧
  defined "TFT_PARALLEL_8_BIT" = false.
Proof. repeat split; vm_compute; reflexivity. Qed.

(** C4: the GPIO pin map is data-in 19, data-out 23, clock 18,
    chip-select 5, data/command 2, reset 4, backlight 15, and the touch
    chip-select [TOUCH_CS] is defined as the sentinel -1. *)
Theorem pin_map :
  int_value "TFT_MISO" = Some 19 ∧
  int_value "TFT_MOSI" = Some 23 ∧
  int_value "TFT_SCLK" = Some 18 ∧
  int_value "TFT_CS" = Some 5 ∧
  int_value "TFT_DC" = Some 2 ∧
  int_value "TFT_RST" = Some 4 ∧
  int_value "TFT_BL" = Some 15 ∧
  value_of "TOUCH_CS" = Some "-1" ∧
  int_value "TOUCH_CS" = Some (-1).
Proof. repeat split; vm_compute; reflexivity. Qed.

(** C5: the channel-order tag is blue-green-red: [TFT_RGB_ORDER] is
    defined as [TFT_BGR]; the red-green-blue alternative is not selected:
    no active directive defines [TFT_RGB_ORDER] as [TFT_RGB], the line
    that would is present in the text only as a comment. *)
Theorem channel_order_is_BGR :
  value_of "TFT_RGB_ORDER" = Some "TFT_BGR" ∧
  value_of "TFT_RGB_ORDER" ≠ Some "TFT_RGB" ∧
  (("TFT_RGB_ORDER", "TFT_RGB") ∉ defines User_Setup_h) ∧
  ("// #define TFT_RGB_ORDER TFT_RGB  // Colour order Red-Green-Blue"
     ∈ User_Setup_h) ∧
  (parse_line "// #define TFT_RGB_ORDER TFT_RGB  // Colour order Red-Green-Blue"
     = Blank).
Proof.
  split; [vm_compute; reflexivity|].
  split; [vm_compute; discriminate|].
  split; [apply (bool_decide_unpack _); vm_compute; exact I|].
  split; [apply (bool_decide_unpack _); vm_compute; exact I|].
  vm_compute; reflexivity.
Qed.

(** C6: the font inclusion flags the manifest defines are exactly the six
    [LOAD_GLCD], [LOAD_FONT2], [LOAD_FONT4], [LOAD_FONT6], [LOAD_FONT7] and
    [LOAD_FONT8]: a symbol named [LOAD_...] is defined if and only if it
    is one of them; each is a flag; and the smooth-font flag [SMOOTH_FONT]
    is defined as well. *)
Theorem six_fonts_and_smooth :
  font_flags =
    ["LOAD_GLCD"; "LOAD_FONT2"; "LOAD_FONT4"; "LOAD_FONT6"; "LOAD_FONT7";
     "LOAD_FONT8"] ∧
  length font_flags = 6%nat ∧
  (∀ n : string,
     (defined n = true ∧ has_prefix "LOAD_" n = true) ↔
     n ∈ ["LOAD_GLCD"; "LOAD_FONT2"; "LOAD_FONT4"; "LOAD_FONT6";
          "LOAD_FONT7"; "LOAD_FONT8"]) ∧
  forallb flag_set font_flags = true ∧
  defined "SMOOTH_FONT" = true ∧
  flag_set "SMOOTH_FONT" = true.
Proof.
  split; [vm_compute; reflexivity|].
  split; [vm_compute; reflexivity|].
  split; [|repeat split; vm_compute; reflexivity].
  intros n. rewrite defined_iff, defined_symbols_eq.
  split.
  - intros [Hin Hp]. rewrite !elem_of_cons in Hin.
    rewrite elem_of_nil in Hin.
    repeat (destruct Hin as [-> | Hin];
            [first [ discriminate Hp
                   | apply (bool_decide_unpack _); vm_compute; exact I ]|]).
    destruct Hin.
  - intros Hin. rewrite !elem_of_cons in Hin.
    rewrite elem_of_nil in Hin.
    repeat (destruct Hin as [-> | Hin];
            [split;
             [apply (bool_decide_unpack _); vm_compute; exact I
             | vm_compute; reflexivity]|]).
    destruct Hin.
Qed.

(** C7: every unused option is left undefined: [TFT_PARALLEL_8_BIT],
    [LOAD_FONT8N], [SPI_TOUCH] and [SUPPORT_TRANSACTIONS] are not in the
    set of defined symbols, and no active directive gives [SPI_FREQUENCY]
    the 40 MHz value.  Each of the five options occurs in the text, on a
    line the preprocessor reads as empty. *)
Theorem unused_options_undefined :
  defined "TFT_PARALLEL_8_BIT" = false ∧
  defined "LOAD_FONT8N" = false ∧
  defined "SPI_TOUCH" = false ∧
  defined "SUPPORT_TRANSACTIONS" = false ∧
  int_value "SPI_FREQUENCY" ≠ Some 40000000 ∧
  (("SPI_FREQUENCY", "40000000") ∉ defines User_Setup_h) ∧
  Forall (λ l, l ∈ User_Setup_h ∧ parse_line l = Blank)
    ["//#define TFT_PARALLEL_8_BIT";
     "//#define SPI_FREQUENCY  40000000 // Maximum for ST7789 but might be unstable";
     "//#define LOAD_FONT8N // Font 8 narrow, only characters 1234567890:-.";
     "//#define SPI_TOUCH  // Saves DMA channel if SPI display is used";
     "//#define SUPPORT_TRANSACTIONS "].
Proof.
  do 4 (split; [vm_compute; reflexivity|]).
  split; [vm_compute; discriminate|].
  split; [apply (bool_decide_unpack _); vm_compute; exact I|].
  repeat constructor;
    solve [ apply (bool_decide_unpack _); vm_compute; exact I
          | vm_compute; reflexivity ].
Qed.

(** C8: each tag group has exactly one tag: one controller tag
    ([ST7789_DRIVER]), one bus-mode tag ([TFT_SPI_MODE], defined once, as
    [SPI_MODE0]) and one channel-order tag ([TFT_RGB_ORDER], defined once,
    as [TFT_BGR]).  No symbol of the header is defined a second time, so
    none of the three has a second, conflicting definition. *)
Theorem one_tag_per_group :
  controller_tags = ["ST7789_DRIVER"] ∧
  define_count User_Setup_h "ST7789_DRIVER" = 1%nat ∧
  define_count User_Setup_h "TFT_SPI_MODE" = 1%nat ∧
  define_count User_Setup_h "TFT_RGB_ORDER" = 1%nat ∧
  filter (λ d, d.1 = "TFT_SPI_MODE") (defines User_Setup_h)
    = [("TFT_SPI_MODE", "SPI_MODE0")] ∧
  filter (λ d, d.1 = "TFT_RGB_ORDER") (defines User_Setup_h)
    = [("TFT_RGB_ORDER", "TFT_BGR")] ∧
  value_of "TFT_SPI_MODE" = Some "SPI_MODE0" ∧
  value_of "TFT_RGB_ORDER" = Some "TFT_BGR" ∧
  NoDup defined_symbols ∧
  redefined manifest = [].
Proof.
  do 8 (split; [vm_compute; reflexivity|]).
  split; [|vm_compute; reflexivity].
  apply (bool_decide_unpack _). vm_compute. exact I.
Qed.

(** C9: the header defines the parallel-enable board tag
    [ESP32_PARALLEL] while the 8-bit parallel transport flag
    [TFT_PARALLEL_8_BIT] is undefined (its line is a comment) and the
    serial pin symbols [TFT_MISO], [TFT_MOSI] and [TFT_SCLK] are defined. *)
Theorem parallel_tag_with_serial_pins :
  defined "ESP32_PARALLEL" = true ∧
  defined "TFT_PARALLEL_8_BIT" = false ∧
  ("//#define TFT_PARALLEL_8_BIT" ∈ User_Setup_h) ∧
  parse_line "//#define TFT_PARALLEL_8_BIT" = Blank ∧
  defined "TFT_MISO" = true ∧
  defined "TFT_MOSI" = true ∧
  defined "TFT_SCLK" = true.
Proof.
  do 2 (split; [vm_compute; reflexivity|]).
  split; [apply (bool_decide_unpack _); vm_compute; exact I|].
  repeat split; vm_compute; reflexivity.
Qed.

(** C10: the seven display pins are pairwise distinct GPIO indices in the
    range 0..39, so no two display functions share a GPIO; [TOUCH_CS] is
    -1, and it is the only symbol of the manifest with a negative integer
    value. *)
Theorem display_pins_distinct_and_valid :
  int_value <$> display_pins = Some <$> [19; 23; 18; 5; 2; 4; 15] ∧
  NoDup (omap int_value display_pins) ∧
  forallb valid_gpio (omap int_value display_pins) = true ∧
  (∀ p q : string,
     (p ∈ display_pins ∧ q ∈ display_pins ∧ int_value p = int_value q)
     ↔ (p ∈ display_pins ∧ p = q)) ∧
  int_value "TOUCH_CS" = Some (-1) ∧
  (∀ n : string,
     (∃ v : Z, int_value n = Some v ∧ v < 0) ↔ n = "TOUCH_CS").
Proof.
  split; [vm_compute; reflexivity|].
  split; [apply (bool_decide_unpack _); vm_compute; exact I|].
  split; [vm_compute; reflexivity|].
  split; [|split; [vm_compute; reflexivity|]].
  - intros p q. split.
    + intros (Hp & Hq & Heq). split; [exact Hp|].
      pose proof pins_injective as Hb.
      rewrite Forall_forall in Hb. specialize (Hb p Hp).
      rewrite Forall_forall in Hb. exact (Hb q Hq Heq).
    + intros [Hp <-]. auto.
  - intros n. split.
    + intros (v & Hv & Hneg).
      pose proof only_touch_negative as Hb.
      rewrite Forall_forall in Hb.
      specialize (Hb n (int_value_defined n v Hv)).
      rewrite Hv in Hb. exact (Hb Hneg).
    + intros ->. exists (-1). split; [vm_compute; reflexivity | lia].
Qed.

(** ** How a header is read: general facts *)
















(** ** Further properties of the header and of its reading *)






(** X5: the header is flat.  Every one of its 62 lines is empty, a
    comment, or an object-like [#define]: it holds no conditional, no
    include, no [#undef], no function-like macro and no program text; it
    opens no block comment and splices no line.  It has 24 active
    directives. *)
Theorem header_only_defines :
  length User_Setup_h = 62%nat ∧
  Forall (λ raw, match parse_line raw with
                 | Blank | Define _ _ => True
                 | _ => False
                 end) User_Setup_h ∧
  uninterpreted manifest = [] ∧
  Forall (λ raw, has_block_open raw = false ∧ ends_with_backslash raw = false)
         User_Setup_h ∧
  length (defines User_Setup_h) = 24%nat ∧
  length (filter (λ raw, parse_line raw = Blank) User_Setup_h) = 38%nat.
Proof.
  split; [reflexivity|].
  split; [repeat constructor|].
  split; [vm_compute; reflexivity|].
  split; [apply (bool_decide_unpack _); vm_compute; exact I|].
  split; vm_compute; reflexivity.
Qed.

(** X6: the manifest defines exactly 24 symbols: a symbol is defined if
    and only if it is one of those listed, so no other option of the
    driver library is set by this header. *)
Theorem manifest_inventory :
  size table = 24%nat ∧
  ∀ n : string,
    defined n = true ↔
    n ∈ ["USER_SETUP_INFO"; "ESP32_PARALLEL"; "ST7789_DRIVER"; "TFT_WIDTH";
         "TFT_HEIGHT"; "CGRAM_OFFSET"; "SPI_FREQUENCY"; "TFT_MISO";
         "TFT_MOSI"; "TFT_SCLK"; "TFT_CS"; "TFT_DC"; "TFT_RST"; "TFT_BL";
         "TOUCH_CS"; "TFT_SPI_MODE"; "LOAD_GLCD"; "LOAD_FONT2"; "LOAD_FONT4";
         "LOAD_FONT6"; "LOAD_FONT7"; "LOAD_FONT8"; "SMOOTH_FONT";
         "TFT_RGB_ORDER"].
Proof.
  split; [vm_compute; reflexivity|].
  intros n. rewrite defined_iff, defined_symbols_eq. reflexivity.
Qed.

(** X7: every replacement text of the manifest is a plain value: ten
    flags, eleven decimal integer constants, two single identifiers and
    one string literal, the setup name [USER_SETUP_INFO]; none is an
    expression. *)
Theorem manifest_kinds :
  (λ n, (n, kind_of_body <$> value_of n)) <$> defined_symbols =
  [("USER_SETUP_INFO",
    Some (KString (dquote +:+ "ConsultEase Faculty Desk Unit" +:+ dquote)));
   ("ESP32_PARALLEL", Some KFlag); ("ST7789_DRIVER", Some KFlag);
   ("TFT_WIDTH", Some (KInt 240)); ("TFT_HEIGHT", Some (KInt 320));
   ("CGRAM_OFFSET", Some KFlag); ("SPI_FREQUENCY", Some (KInt 27000000));
   ("TFT_MISO", Some (KInt 19)); ("TFT_MOSI", Some (KInt 23));
   ("TFT_SCLK", Some (KInt 18)); ("TFT_CS", Some (KInt 5));
   ("TFT_DC", Some (KInt 2)); ("TFT_RST", Some (KInt 4));
   ("TFT_BL", Some (KInt 15)); ("TOUCH_CS", Some (KInt (-1)));
   ("TFT_SPI_MODE", Some (KIdent "SPI_MODE0"));
   ("LOAD_GLCD", Some KFlag); ("LOAD_FONT2", Some KFlag);
   ("LOAD_FONT4", Some KFlag); ("LOAD_FONT6", Some KFlag);
   ("LOAD_FONT7", Some KFlag); ("LOAD_FONT8", Some KFlag);
   ("SMOOTH_FONT", Some KFlag); ("TFT_RGB_ORDER", Some (KIdent "TFT_BGR"))] ∧
  value_of "USER_SETUP_INFO" =
    Some (dquote +:+ "ConsultEase Faculty Desk Unit" +:+ dquote) ∧
  int_value "USER_SETUP_INFO" = None.
Proof. repeat split; vm_compute; reflexivity. Qed.

(** X8: the replacement texts of the header refer to two identifiers
    only, [SPI_MODE0] and [TFT_BGR], and the header defines neither: no
    macro of the header expands to another macro of the header, and both
    names are left to the driver library and the board support code. *)
Theorem referenced_idents_external :
  referenced_idents = ["SPI_MODE0"; "TFT_BGR"] ∧
  Forall (λ n, defined n = false) referenced_idents ∧
  Forall (λ n, n ∉ referenced_idents) defined_symbols.
Proof.
  split; [vm_compute; reflexivity|].
  split; apply (bool_decide_unpack _); vm_compute; exact I.
Qed.

(** X9: the pin directives agree with the header's own comment on the
    VSPI port: the comment documents CS on GPIO 5, MOSI on 23, MISO on 19
    and SCK on 18, and the macros [TFT_CS], [TFT_MOSI], [TFT_MISO] and
    [TFT_SCLK] have these values. *)
Theorem documented_vspi_pins_agree :
  documented_gpio = [("CS", 5); ("MOSI", 23); ("MISO", 19); ("SCK", 18)] ∧
  Forall (λ kv, int_value (documented_symbol kv.1) = Some kv.2)
         documented_gpio.
Proof.
  split; [vm_compute; reflexivity|].
  apply (bool_decide_unpack _). vm_compute. exact I.
Qed.

(** X10: the header carries six disabled directives, on lines 12, 26, 51,
    55, 58 and 62.  Uncommenting one of the four unused flags adds that
    flag and changes nothing else.  Uncommenting the 40 MHz line, which
    follows the active [SPI_FREQUENCY] line, is a conflicting
    redefinition that leaves the frequency at 40000000.  Uncommenting the
    [TFT_RGB] line, which precedes the active [TFT_RGB_ORDER] line, is a
    conflicting redefinition too, and leaves the table as it was: the
    later [TFT_BGR] stays in force. *)
Theorem disabled_directives_effect :
  disabled_directives User_Setup_h =
    [(11%nat, ("TFT_PARALLEL_8_BIT", EmptyString));
     (25%nat, ("SPI_FREQUENCY", "40000000"));
     (50%nat, ("LOAD_FONT8N", EmptyString));
     (54%nat, ("SPI_TOUCH", EmptyString));
     (57%nat, ("TFT_RGB_ORDER", "TFT_RGB"));
     (61%nat, ("SUPPORT_TRANSACTIONS", EmptyString))] ∧
  Forall (λ d,
            macros (preprocess (enable d.1 User_Setup_h))
              = <[d.2 := EmptyString]> table ∧
            redefined (preprocess (enable d.1 User_Setup_h)) = [])
         [(11%nat, "TFT_PARALLEL_8_BIT"); (50%nat, "LOAD_FONT8N");
          (54%nat, "SPI_TOUCH"); (61%nat, "SUPPORT_TRANSACTIONS")] ∧
  macros (preprocess (enable 25 User_Setup_h))
    = <["SPI_FREQUENCY" := "40000000"]> table ∧
  redefined (preprocess (enable 25 User_Setup_h)) = ["SPI_FREQUENCY"] ∧
  macros (preprocess (enable 57 User_Setup_h)) = table ∧
  redefined (preprocess (enable 57 User_Setup_h)) = ["TFT_RGB_ORDER"].
Proof.
  split; [vm_compute; reflexivity|].
  split.
  { do 4 (apply Forall_cons_2;
          [split; [apply (bool_decide_unpack _); vm_compute; exact I
                  | vm_compute; reflexivity]|]).
    apply Forall_nil_2. }
  split; [apply (bool_decide_unpack _); vm_compute; exact I|].
  split; [vm_compute; reflexivity|].
  split; [apply (bool_decide_unpack _); vm_compute; exact I|].
  vm_compute; reflexivity.
Qed.




